(** * Task store service (precode.go): a shallow embedding and its contract

    The program is a set of four HTTP handlers around one package-level
    map, [tasks : map[string]Task].  The handlers are embedded as functions
    that take the response writer, the request and the package state and
    return the writer and the state they leave behind.

    What the program calls but does not define is modelled as follows:
    - [net/http]: the response writer (header map, status line, body) and
      [http.Error], after the library's implementation;
    - [chi.URLParam]: a lookup in the URL parameters of the request;
    - [encoding/json]: an interface ([Json]); the handlers are stated for
      every implementation of it, and [PlainJson] is one that runs;
    - [http.ListenAndServe]: its outcome is supplied by the environment. *)

From Stdlib Require Import Ascii String.
From stdpp Require Import gmap strings list fin_maps sorting.

Open Scope string_scope.

(** ** Go values *)

(** An [error] value with its [Error()] method. *)
Inductive error : Type := errorString (s : string).

Definition Error (e : error) : string :=
  match e with errorString s => s end.

(** A slice [[]T]: [None] is the nil slice, which [encoding/json] tells
    apart from an empty one. *)
Definition slice (T : Type) : Type := option (list T).

Definition len {T : Type} (s : slice T) : nat :=
  match s with
  | None => 0
  | Some l => length l
  end.

(** The line feed written by [fmt.Println] and [fmt.Fprintln]. *)
Definition LF : string := String (Ascii.ascii_of_nat 10) EmptyString.

(** ** Data model *)

Record Task : Type := {
  ID : string;
  Description : string;
  Note : string;
  Applications : slice string
}.

#[global] Instance Task_eq_dec : EqDecision Task.
Proof. solve_decision. Defined.

(** The zero value of [Task], what [var newTask Task] declares. *)
Definition Task_zero : Task :=
  {| ID := ""; Description := ""; Note := ""; Applications := None |}.

(** Package-level variables. *)
Record Globals : Type := { tasks : gmap string Task }.

(** The initializer of [tasks]. *)
Definition initial : Globals :=
  {| tasks :=
       <["1" := {| ID := "1";
                   Description := "Сделать финальное задание темы REST API";
                   Note := "Если сегодня сделаю, то завтра будет свободный день. Ура!";
                   Applications := Some ["VS Code"; "Terminal"; "git"] |}]>
      (<["2" := {| ID := "2";
                   Description := "Протестировать финальное задание с помощью Postmen";
                   Note := "Лучше это делать в процессе разработки, каждый раз, когда запускаешь сервер и проверяешь хендлер";
                   Applications := Some ["VS Code"; "Terminal"; "git"; "Postman"] |}]>
       ∅) |}.

(** ** net/http *)

Definition StatusOK : nat := 200.
Definition StatusCreated : nat := 201.
Definition StatusBadRequest : nat := 400.
Definition StatusInternalServerError : nat := 500.

(** [http.Header]: header name to its values. *)
Abbreviation Header := (gmap string (list string)).

(** The server's response writer.  [header] is the map [Header()] hands to
    the handler; [WriteHeader] sends the status line with a snapshot of it,
    after which changes to [header] no longer reach the client. *)
Record ResponseWriter : Type := {
  header : Header;
  wroteHeader : bool;
  status : nat;
  sent : Header;
  body : string
}.

Definition NewWriter : ResponseWriter :=
  {| header := ∅; wroteHeader := false; status := 0; sent := ∅; body := "" |}.

(** [w.Header().Set(key, value)] *)
Definition Header_Set (w : ResponseWriter) (key value : string) : ResponseWriter :=
  {| header := <[key := [value]]> (header w); wroteHeader := wroteHeader w;
     status := status w; sent := sent w; body := body w |}.

(** [w.Header().Del(key)] *)
Definition Header_Del (w : ResponseWriter) (key : string) : ResponseWriter :=
  {| header := delete key (header w); wroteHeader := wroteHeader w;
     status := status w; sent := sent w; body := body w |}.

(** [w.WriteHeader(code)]: a second call is ignored. *)
Definition WriteHeader (w : ResponseWriter) (code : nat) : ResponseWriter :=
  if wroteHeader w then w
  else {| header := header w; wroteHeader := true;
          status := code; sent := header w; body := body w |}.

(** [w.Write(data)]: sends status 200 first when no status was sent. *)
Definition Write (w : ResponseWriter) (data : string) : ResponseWriter :=
  let w := WriteHeader w StatusOK in
  {| header := header w; wroteHeader := wroteHeader w;
     status := status w; sent := sent w; body := body w +:+ data |}.

(** [http.Error(w, error, code)]: the message is written with
    [fmt.Fprintln], hence followed by a line feed. *)
Definition http_Error (w : ResponseWriter) (error : string) (code : nat) : ResponseWriter :=
  let w := Header_Del w "Content-Length" in
  let w := Header_Set w "Content-Type" "text/plain; charset=utf-8" in
  let w := Header_Set w "X-Content-Type-Options" "nosniff" in
  let w := WriteHeader w code in
  Write w (error +:+ LF).

(** What the client receives. *)
Definition contentType (w : ResponseWriter) : option (list string) :=
  sent w !! "Content-Type".

(** A request body as [bytes.Buffer.ReadFrom] sees it: the bytes read, and
    the error that ended the reading if it was not end of file. *)
Record Reader : Type := { content : string; failure : option error }.

Record Request : Type := {
  Body : Reader;
  URLParams : gmap string string
}.

(** [buffer.ReadFrom(r)]; the buffer afterwards and the error. *)
Definition ReadFrom (r : Reader) : string * option error :=
  (content r, failure r).

(** [chi.URLParam(r, key)]: the empty string when the route has no such
    parameter. *)
Definition chi_URLParam (r : Request) (key : string) : string :=
  default "" (URLParams r !! key).

(** ** encoding/json, as used by the handlers *)

Class Json : Type := {
  (** [json.Marshal(tasks)] *)
  Marshal_tasks : gmap string Task -> string * option error;
  (** [json.Marshal(task)] *)
  Marshal_Task : Task -> string * option error;
  (** [json.Unmarshal(data, &v)]: [v] after the call, and the error *)
  Unmarshal_Task : string -> Task -> Task * option error
}.

(** ** The handlers *)

Section Handlers.

Context {J : Json}.

Definition getTasks (writer : ResponseWriter) (_ : Request) (g : Globals)
  : ResponseWriter * Globals :=
  let '(response, err) := Marshal_tasks (tasks g) in
  match err with
  | Some err =>
      (http_Error writer (Error err) StatusInternalServerError, g)
  | None =>
      let writer := Header_Set writer "Content-Type" "application/json" in
      let writer := WriteHeader writer StatusOK in
      (Write writer response, g)
  end.

Definition getTask (writer : ResponseWriter) (request : Request) (g : Globals)
  : ResponseWriter * Globals :=
  let targetID := chi_URLParam request "id" in
  match tasks g !! targetID with
  | None =>
      (http_Error writer "Task with given ID was not found" StatusBadRequest, g)
  | Some task =>
      let '(response, err) := Marshal_Task task in
      match err with
      | Some err => (http_Error writer (Error err) StatusBadRequest, g)
      | None =>
          let writer := Header_Set writer "Content-Type" "application/json" in
          let writer := WriteHeader writer StatusOK in
          (Write writer response, g)
      end
  end.

Definition postTask (writer : ResponseWriter) (request : Request) (g : Globals)
  : ResponseWriter * Globals :=
  let newTask := Task_zero in
  let '(buffer, err) := ReadFrom (Body request) in
  match err with
  | Some err => (http_Error writer (Error err) StatusBadRequest, g)
  | None =>
      let '(newTask, err) := Unmarshal_Task buffer newTask in
      match err with
      | Some err => (http_Error writer (Error err) StatusBadRequest, g)
      | None =>
          let g := {| tasks := <[ID newTask := newTask]> (tasks g) |} in
          let writer := Header_Set writer "Content-Type" "application/json" in
          (WriteHeader writer StatusCreated, g)
      end
  end.

Definition deleteTask (writer : ResponseWriter) (request : Request) (g : Globals)
  : ResponseWriter * Globals :=
  let taskID := chi_URLParam request "id" in
  match tasks g !! taskID with
  | None => (http_Error writer "Task was not found." StatusBadRequest, g)
  | Some _ =>
      let g := {| tasks := delete taskID (tasks g) |} in
      let writer := Header_Set writer "Content-Type" "application/json" in
      (WriteHeader writer StatusOK, g)
  end.

End Handlers.

(** ** The entry point *)

Section Main.

Context {J : Json}.

Definition HandlerFunc : Type :=
  ResponseWriter -> Request -> Globals -> ResponseWriter * Globals.

Record Route : Type := {
  method : string;
  pattern : string;
  handler : HandlerFunc
}.

(** A [chi] router, as far as [main] uses it: the routes in the order of
    their registration. *)
Definition Router : Type := list Route.

Definition chi_NewRouter : Router := [].

Definition Router_Get (router : Router) (path : string) (h : HandlerFunc) : Router :=
  (router ++ [{| method := "GET"; pattern := path; handler := h |}])%list.

Definition Router_Post (router : Router) (path : string) (h : HandlerFunc) : Router :=
  (router ++ [{| method := "POST"; pattern := path; handler := h |}])%list.

Definition Router_Delete (router : Router) (path : string) (h : HandlerFunc) : Router :=
  (router ++ [{| method := "DELETE"; pattern := path; handler := h |}])%list.

(** A call of [http.ListenAndServe] blocks for as long as the server
    accepts connections; when it returns, it returns why it stopped. *)
Inductive Outcome : Type :=
  | Serving
  | Returned (err : option error).

(** A run of [main]: the listener it asked for, what it printed, and
    whether it returned. *)
Record Process : Type := {
  listener : option (string * Router);
  stdout : string;
  returned : bool
}.

Definition main (ListenAndServe : string -> Router -> Outcome) : Process :=
  let router := chi_NewRouter in
  let router := Router_Get router "/tasks" getTasks in
  let router := Router_Post router "/tasks" postTask in
  let router := Router_Get router "/tasks/{id}" getTask in
  let router := Router_Delete router "/tasks/{id}" deleteTask in
  match ListenAndServe ":8080" router with
  | Serving =>
      {| listener := Some (":8080", router); stdout := ""; returned := false |}
  | Returned (Some err) =>
      {| listener := Some (":8080", router);
         stdout := "Ошибка при запуске сервера: " +:+ Error err;
         returned := true |}
  | Returned None =>
      {| listener := Some (":8080", router);
         stdout := "Listen and Serve" +:+ LF;
         returned := true |}
  end.

(** ** Reachable states

    The states of [tasks] the process can be in: the initializer, then the
    effect of any handler on any request. *)
Inductive reachable : Globals -> Prop :=
  | reachable_initial : reachable initial
  | reachable_getTasks w r g : reachable g -> reachable (getTasks w r g).2
  | reachable_getTask w r g : reachable g -> reachable (getTask w r g).2
  | reachable_postTask w r g : reachable g -> reachable (postTask w r g).2
  | reachable_deleteTask w r g : reachable g -> reachable (deleteTask w r g).2.

End Main.

(** ** An implementation of the JSON interface

    A JSON codec for the task shape that computes: compact output in the
    layout of [encoding/json] (struct fields in declaration order, map keys
    sorted, a nil slice as [null]), and a decoder for objects whose values
    are strings, [null] or arrays of strings.  Only the quote and the
    backslash are escaped on output. *)
Module PlainJson.

Definition dquote : ascii := Ascii.ascii_of_nat 34.
Definition backslash : ascii := Ascii.ascii_of_nat 92.

Fixpoint escape (s : string) : string :=
  match s with
  | EmptyString => EmptyString
  | String c s' =>
      if decide (c = dquote) then String backslash (String dquote (escape s'))
      else if decide (c = backslash) then String backslash (String backslash (escape s'))
      else String c (escape s')
  end.

Definition encode_string (s : string) : string :=
  String dquote (escape s +:+ String dquote EmptyString).

Fixpoint join (sep : string) (l : list string) : string :=
  match l with
  | [] => ""
  | [x] => x
  | x :: l' => x +:+ sep +:+ join sep l'
  end.

Definition encode_strings (l : slice string) : string :=
  match l with
  | None => "null"
  | Some l => "[" +:+ join "," (encode_string <$> l) +:+ "]"
  end.

Definition encode_Task (t : Task) : string :=
  "{" +:+ encode_string "id" +:+ ":" +:+ encode_string (ID t)
  +:+ "," +:+ encode_string "description" +:+ ":" +:+ encode_string (Description t)
  +:+ "," +:+ encode_string "note" +:+ ":" +:+ encode_string (Note t)
  +:+ "," +:+ encode_string "applications" +:+ ":" +:+ encode_strings (Applications t)
  +:+ "}".

Definition key_le (p q : string * Task) : Prop := String.le p.1 q.1.

#[global] Instance key_le_dec : RelDecision key_le.
Proof. intros p q. unfold key_le, String.le. apply _. Defined.

Definition encode_tasks (m : gmap string Task) : string :=
  "{" +:+ join "," ((fun p : string * Task => encode_string p.1 +:+ ":" +:+ encode_Task p.2)
                      <$> merge_sort key_le (map_to_list m))
  +:+ "}".

Inductive token : Type :=
  | TLBrace | TRBrace | TLBrack | TRBrack | TColon | TComma | TNull
  | TString (s : string).

(** Where the lexer is: between tokens, inside a string literal (with the
    characters read so far, last first), or just after a backslash. *)
Inductive mode : Type :=
  | Out
  | InStr (acc : string)
  | Esc (acc : string).

Definition is_white (c : ascii) : bool :=
  bool_decide (c = " "%char) || bool_decide (c = Ascii.ascii_of_nat 9)
  || bool_decide (c = Ascii.ascii_of_nat 10) || bool_decide (c = Ascii.ascii_of_nat 13).

Definition punct (c : ascii) : option token :=
  if decide (c = "{"%char) then Some TLBrace
  else if decide (c = "}"%char) then Some TRBrace
  else if decide (c = "["%char) then Some TLBrack
  else if decide (c = "]"%char) then Some TRBrack
  else if decide (c = ":"%char) then Some TColon
  else if decide (c = ","%char) then Some TComma
  else None.

Definition unescape (c : ascii) : option ascii :=
  if decide (c = dquote) then Some dquote
  else if decide (c = backslash) then Some backslash
  else if decide (c = "/"%char) then Some "/"%char
  else if decide (c = "n"%char) then Some (Ascii.ascii_of_nat 10)
  else if decide (c = "t"%char) then Some (Ascii.ascii_of_nat 9)
  else if decide (c = "r"%char) then Some (Ascii.ascii_of_nat 13)
  else None.

Fixpoint lex (m : mode) (s : string) : option (list token) :=
  match s with
  | EmptyString => match m with Out => Some [] | _ => None end
  | String c s' =>
      match m with
      | Out =>
          if is_white c then lex Out s'
          else if decide (c = dquote) then lex (InStr "") s'
          else if decide (c = "n"%char) then
            match s' with
            | String "u" (String "l" (String "l" s'')) => cons TNull <$> lex Out s''
            | _ => None
            end
          else match punct c with
               | Some t => cons t <$> lex Out s'
               | None => None
               end
      | InStr acc =>
          if decide (c = dquote) then cons (TString (String.rev acc)) <$> lex Out s'
          else if decide (c = backslash) then lex (Esc acc) s'
          else lex (InStr (String c acc)) s'
      | Esc acc =>
          match unescape c with
          | Some c' => lex (InStr (String c' acc)) s'
          | None => None
          end
      end
  end.

Inductive value : Type :=
  | VString (s : string)
  | VNull
  | VArray (l : list string).

(** The rest of an array after its first element. *)
Fixpoint parse_elems (ts : list token) : option (list string * list token) :=
  match ts with
  | TRBrack :: ts' => Some ([], ts')
  | TComma :: TString s :: ts' =>
      match parse_elems ts' with
      | Some (l, rest) => Some (s :: l, rest)
      | None => None
      end
  | _ => None
  end.

Definition parse_value (ts : list token) : option (value * list token) :=
  match ts with
  | TString s :: ts' => Some (VString s, ts')
  | TNull :: ts' => Some (VNull, ts')
  | TLBrack :: TRBrack :: ts' => Some (VArray [], ts')
  | TLBrack :: TString s :: ts' =>
      match parse_elems ts' with
      | Some (l, rest) => Some (VArray (s :: l), rest)
      | None => None
      end
  | _ => None
  end.

(** Store a member into the task: [null] leaves a string as it is and
    makes the slice nil, a value of the wrong kind is an error, a key that
    is not a field of the task is skipped. *)
Definition assign (k : string) (v : value) (t : Task) : option Task :=
  if decide (k = "id") then
    match v with
    | VString s => Some {| ID := s; Description := Description t; Note := Note t;
                           Applications := Applications t |}
    | VNull => Some t
    | VArray _ => None
    end
  else if decide (k = "description") then
    match v with
    | VString s => Some {| ID := ID t; Description := s; Note := Note t;
                           Applications := Applications t |}
    | VNull => Some t
    | VArray _ => None
    end
  else if decide (k = "note") then
    match v with
    | VString s => Some {| ID := ID t; Description := Description t; Note := s;
                           Applications := Applications t |}
    | VNull => Some t
    | VArray _ => None
    end
  else if decide (k = "applications") then
    match v with
    | VArray l => Some {| ID := ID t; Description := Description t; Note := Note t;
                          Applications := Some l |}
    | VNull => Some {| ID := ID t; Description := Description t; Note := Note t;
                       Applications := None |}
    | VString _ => None
    end
  else Some t.

(** The members of an object after its opening brace, up to the end of the
    input. *)
Fixpoint parse_members (fuel : nat) (ts : list token) (t : Task) : option Task :=
  match fuel with
  | 0 => None
  | S fuel =>
      match ts with
      | TString k :: TColon :: ts' =>
          match parse_value ts' with
          | Some (v, rest) =>
              match assign k v t with
              | Some t' =>
                  match rest with
                  | [TRBrace] => Some t'
                  | TComma :: rest' => parse_members fuel rest' t'
                  | _ => None
                  end
              | None => None
              end
          | None => None
          end
      | _ => None
      end
  end.

Definition decode_Task (data : string) (t : Task) : option Task :=
  match lex Out data with
  | Some [TNull] => Some t
  | Some [TLBrace; TRBrace] => Some t
  | Some (TLBrace :: ts) => parse_members (length ts) ts t
  | _ => None
  end.

(** The tokens of the encoder's output, for the proof that decoding
    inverts encoding. *)
Fixpoint comma_tokens (l : list string) : list token :=
  match l with
  | [] => []
  | s :: l' => TComma :: TString s :: comma_tokens l'
  end.

Definition elem_tokens (l : list string) : list token :=
  match l with
  | [] => []
  | s :: l' => TString s :: comma_tokens l'
  end.

Definition slice_tokens (a : slice string) : list token :=
  match a with
  | None => [TNull]
  | Some l => TLBrack :: (elem_tokens l ++ [TRBrack])%list
  end.

Definition slice_value (a : slice string) : value :=
  match a with
  | None => VNull
  | Some l => VArray l
  end.

Definition Task_tokens (t : Task) : list token :=
  ([TLBrace; TString "id"; TColon; TString (ID t); TComma;
    TString "description"; TColon; TString (Description t); TComma;
    TString "note"; TColon; TString (Note t); TComma;
    TString "applications"; TColon] ++ slice_tokens (Applications t) ++ [TRBrace])%list.

Definition codec : Json :=
  {| Marshal_tasks m := (encode_tasks m, None);
     Marshal_Task t := (encode_Task t, None);
     Unmarshal_Task data v :=
       match decode_Task data v with
       | Some t => (t, None)
       | None => (v, Some (errorString "invalid JSON input"))
       end |}.

End PlainJson.

(** Requests used in the examples below. *)
Definition request_with_id (id : string) : Request :=
  {| Body := {| content := ""; failure := None |};
     URLParams := {["id" := id]} |}.

Definition request_with_body (data : string) : Request :=
  {| Body := {| content := data; failure := None |}; URLParams := ∅ |}.

Definition task3 : Task :=
  {| ID := "3"; Description := "d"; Note := "n"; Applications := Some ["a"] |}.

Definition json3 : string := PlainJson.encode_Task task3.

Definition request_with_id_and_body (id data : string) : Request :=
  {| Body := {| content := data; failure := None |};
     URLParams := {["id" := id]} |}.

Definition request_with_broken_body (data : string) (e : error) : Request :=
  {| Body := {| content := data; failure := Some e |}; URLParams := ∅ |}.

Definition json_header : Header := {["Content-Type" := ["application/json"]]}.

(** The header [http.Error] leaves on a writer that had none. *)
Definition error_header : Header :=
  <["X-Content-Type-Options" := ["nosniff"]]>
    (<["Content-Type" := ["text/plain; charset=utf-8"]]> (delete "Content-Length" ∅)).

(** The state after a run of delete requests, each on a writer of its own. *)
Definition deleteTasks (rs : list Request) (g : Globals) : Globals :=
  foldl (fun g r => (deleteTask NewWriter r g).2) g rs.

(** Every key of the mapping is the [id] of the task stored under it. *)
Definition keys_are_ids (m : gmap string Task) : Prop :=
  forall id t, m !! id = Some t -> ID t = id.

(** States and values used in the examples below. *)
Definition after_post3 : Globals :=
  (@postTask PlainJson.codec NewWriter (request_with_body json3) initial).2.

Definition after_delete1 : Globals :=
  (deleteTask NewWriter (request_with_id "1") initial).2.

(** ** Runs of requests

    The server hands each request, with a writer of its own, to the handler
    of its route; a run is a list of such calls served one after another. *)
Inductive Call : Type :=
  | CallGetTasks (r : Request)
  | CallPostTask (r : Request)
  | CallGetTask (r : Request)
  | CallDeleteTask (r : Request).

Definition serve `{J : Json} (c : Call) (g : Globals) : ResponseWriter * Globals :=
  match c with
  | CallGetTasks r => getTasks NewWriter r g
  | CallPostTask r => postTask NewWriter r g
  | CallGetTask r => getTask NewWriter r g
  | CallDeleteTask r => deleteTask NewWriter r g
  end.

Definition run `{J : Json} (cs : list Call) (g : Globals) : Globals :=
  foldl (fun g c => (serve c g).2) g cs.

(** A call that stores a task under [id]: a create whose body is read and
    decoded without error into a task with that id.  A create that is
    rejected stores nothing, whatever its body holds. *)
Definition creates `{J : Json} (id : string) (c : Call) : Prop :=
  match c with
  | CallPostTask r =>
      failure (Body r) = None
      /\ (Unmarshal_Task (content (Body r)) Task_zero).2 = None
      /\ ID (Unmarshal_Task (content (Body r)) Task_zero).1 = id
  | CallGetTasks _ | CallGetTask _ | CallDeleteTask _ => False
  end.

(** A call that deletes [id]. *)
Definition deletes (id : string) (c : Call) : Prop :=
  match c with
  | CallDeleteTask r => chi_URLParam r "id" = id
  | CallGetTasks _ | CallPostTask _ | CallGetTask _ => False
  end.

(** The routes [main] registers, in its order. *)
Definition routes `{J : Json} : Router :=
  [ {| method := "GET"; pattern := "/tasks"; handler := getTasks |};
    {| method := "POST"; pattern := "/tasks"; handler := postTask |};
    {| method := "GET"; pattern := "/tasks/{id}"; handler := getTask |};
    {| method := "DELETE"; pattern := "/tasks/{id}"; handler := deleteTask |} ].

(** An environment in which the listener fails at once. *)
Definition listen_fails (e : error) (addr : string) (router : Router) : Outcome :=
  Returned (Some e).

Definition address_in_use : error :=
  errorString "listen tcp :8080: bind: address already in use".

(** More values for the examples. *)
Definition seed1 : Task :=
  {| ID := "1";
     Description := "Сделать финальное задание темы REST API";
     Note := "Если сегодня сделаю, то завтра будет свободный день. Ура!";
     Applications := Some ["VS Code"; "Terminal"; "git"] |}.

Definition task3' : Task :=
  {| ID := "3"; Description := "x"; Note := ""; Applications := Some [] |}.

Definition json3' : string := PlainJson.encode_Task task3'.

Definition task4 : Task :=
  {| ID := "4"; Description := "other"; Note := ""; Applications := None |}.

Definition json4 : string := PlainJson.encode_Task task4.

(** * Properties *)

(** ** The response writer *)

Lemma http_Error_NewWriter (msg : string) (code : nat) :
  http_Error NewWriter msg code =
  {| header := error_header; wroteHeader := true; status := code;
     sent := error_header; body := msg +:+ LF |}.
Proof. reflexivity. Qed.

Lemma http_Error_status msg code : status (http_Error NewWriter msg code) = code.
Proof. reflexivity. Qed.

Lemma http_Error_body msg code : body (http_Error NewWriter msg code) = msg +:+ LF.
Proof. reflexivity. Qed.

Lemma http_Error_contentType msg code :
  contentType (http_Error NewWriter msg code) = Some ["text/plain; charset=utf-8"].
Proof. reflexivity. Qed.

(** A message is never equal to itself followed by a line feed. *)
Lemma append_LF_neq (s : string) : s +:+ LF ≠ s.
Proof.
  induction s as [|c s IH]; simpl.
  - discriminate.
  - intros H. injection H as H. exact (IH H).
Qed.

(** ** The handlers, for every implementation of the JSON interface *)

Section Contract.

Context {J : Json}.

Implicit Types (request : Request) (g : Globals) (t : Task).

(** What each handler does on each of its paths. *)

Lemma getTask_missing request g :
  tasks g !! chi_URLParam request "id" = None ->
  getTask NewWriter request g =
  (http_Error NewWriter "Task with given ID was not found" StatusBadRequest, g).
Proof. intros Hnone. unfold getTask. by rewrite Hnone. Qed.

Lemma getTask_found request g t response :
  tasks g !! chi_URLParam request "id" = Some t ->
  Marshal_Task t = (response, None) ->
  getTask NewWriter request g =
  ({| header := json_header; wroteHeader := true; status := StatusOK;
      sent := json_header; body := response |}, g).
Proof. intros Hsome Hm. unfold getTask. by rewrite Hsome, Hm. Qed.

Lemma deleteTask_missing request g :
  tasks g !! chi_URLParam request "id" = None ->
  deleteTask NewWriter request g =
  (http_Error NewWriter "Task was not found." StatusBadRequest, g).
Proof. intros Hnone. unfold deleteTask. by rewrite Hnone. Qed.

Lemma deleteTask_found request g t :
  tasks g !! chi_URLParam request "id" = Some t ->
  deleteTask NewWriter request g =
  ({| header := json_header; wroteHeader := true; status := StatusOK;
      sent := json_header; body := "" |},
   {| tasks := delete (chi_URLParam request "id") (tasks g) |}).
Proof. intros Hsome. unfold deleteTask. by rewrite Hsome. Qed.

Lemma postTask_decoded request g t :
  failure (Body request) = None ->
  Unmarshal_Task (content (Body request)) Task_zero = (t, None) ->
  postTask NewWriter request g =
  ({| header := json_header; wroteHeader := true; status := StatusCreated;
      sent := json_header; body := "" |},
   {| tasks := <[ID t := t]> (tasks g) |}).
Proof.
  intros Hread Hdec. unfold postTask, ReadFrom.
  by rewrite Hread, Hdec.
Qed.

(** After a delete the id is absent, whichever path was taken. *)
Lemma deleteTask_absent request g :
  tasks (deleteTask NewWriter request g).2 !! chi_URLParam request "id" = None.
Proof.
  destruct (tasks g !! chi_URLParam request "id") as [t|] eqn:Hlook.
  - rewrite (deleteTask_found _ _ t Hlook). simpl. apply lookup_delete_eq.
  - by rewrite (deleteTask_missing _ _ Hlook).
Qed.

(** C1: when the body of the request is read and decodes into a task,
    [postTask] stores that task under the [id] of the decoded body, whatever
    the URL parameters of the request are; the entry it finds under that id
    is replaced as a whole, every other entry is kept; the response has
    status 201, content type [application/json] and an empty body. *)
Theorem postTask_stores_decoded_task request g t :
  failure (Body request) = None ->
  Unmarshal_Task (content (Body request)) Task_zero = (t, None) ->
  let w := (postTask NewWriter request g).1 in
  let g' := (postTask NewWriter request g).2 in
  tasks g' = <[ID t := t]> (tasks g)
  /\ tasks g' !! ID t = Some t
  /\ (forall id, id <> ID t -> tasks g' !! id = tasks g !! id)
  /\ status w = StatusCreated
  /\ contentType w = Some ["application/json"]
  /\ body w = "".
Proof.
  intros Hread Hdec w g'. subst w g'.
  rewrite (postTask_decoded _ _ _ Hread Hdec). simpl.
  split_and!; try done.
  - apply lookup_insert_eq.
  - intros id Hne. by apply lookup_insert_ne.
Qed.

(** The seed data: [tasks] starts with exactly the ids 1 and 2; task 1
    has the given description and three applications, task 2 has four. *)
Lemma initial_tasks :
  dom (tasks initial) = {["1"; "2"]}
  /\ size (tasks initial) = 2
  /\ (exists t1, tasks initial !! "1" = Some t1 /\ ID t1 = "1"
        /\ Description t1 = "Сделать финальное задание темы REST API"
        /\ len (Applications t1) = 3)
  /\ (exists t2, tasks initial !! "2" = Some t2 /\ ID t2 = "2"
        /\ len (Applications t2) = 4).
Proof.
  split_and!.
  - unfold initial; simpl. rewrite !dom_insert_L, dom_empty_L. set_solver.
  - unfold initial; simpl.
    rewrite map_size_insert_None by done.
    by rewrite map_size_insert_None, map_size_empty.
  - eexists. split; [reflexivity|]. done.
  - eexists. split; [reflexivity|]. done.
Qed.

(** C2: in the initial state the mapping has exactly the two seed tasks
    (id 1 with its description and three applications, id 2 with four
    applications), and [getTasks] answers with status 200, content type
    [application/json] and, as body, the JSON encoding of that very mapping,
    which it leaves as it is. *)
Theorem getTasks_initial request response :
  Marshal_tasks (tasks initial) = (response, None) ->
  (dom (tasks initial) = {["1"; "2"]}
   /\ size (tasks initial) = 2
   /\ (exists t1, tasks initial !! "1" = Some t1 /\ ID t1 = "1"
         /\ Description t1 = "Сделать финальное задание темы REST API"
         /\ len (Applications t1) = 3)
   /\ (exists t2, tasks initial !! "2" = Some t2 /\ ID t2 = "2"
         /\ len (Applications t2) = 4))
  /\ status (getTasks NewWriter request initial).1 = StatusOK
  /\ contentType (getTasks NewWriter request initial).1 = Some ["application/json"]
  /\ body (getTasks NewWriter request initial).1 = response
  /\ (getTasks NewWriter request initial).2 = initial.
Proof.
  intros Hm. split; [exact initial_tasks|].
  unfold getTasks. rewrite Hm. by simpl.
Qed.

(** C3 as amended: for an id that is not in the mapping, [getTask] answers
    with status 400, content type [text/plain], and a body that is the
    message [Task with given ID was not found] followed by one line feed;
    the mapping is unchanged. *)
Theorem getTask_not_found request g :
  tasks g !! chi_URLParam request "id" = None ->
  status (getTask NewWriter request g).1 = StatusBadRequest
  /\ contentType (getTask NewWriter request g).1 = Some ["text/plain; charset=utf-8"]
  /\ body (getTask NewWriter request g).1 = "Task with given ID was not found" +:+ LF
  /\ (getTask NewWriter request g).2 = g.
Proof.
  intros Hnone. by rewrite (getTask_missing _ _ Hnone).
Qed.

(** C4 as amended: for an id that is not in the mapping, [deleteTask]
    answers with status 400, content type [text/plain], and a body that is
    the message [Task was not found.] followed by one line feed; the mapping
    is unchanged. *)
Theorem deleteTask_not_found request g :
  tasks g !! chi_URLParam request "id" = None ->
  status (deleteTask NewWriter request g).1 = StatusBadRequest
  /\ contentType (deleteTask NewWriter request g).1 = Some ["text/plain; charset=utf-8"]
  /\ body (deleteTask NewWriter request g).1 = "Task was not found." +:+ LF
  /\ (deleteTask NewWriter request g).2 = g.
Proof.
  intros Hnone. by rewrite (deleteTask_missing _ _ Hnone).
Qed.

(** ** The state: which handlers change it, and how *)

Lemma getTasks_state w request g : (getTasks w request g).2 = g.
Proof.
  unfold getTasks. destruct (Marshal_tasks (tasks g)) as [response [err|]]; reflexivity.
Qed.

Lemma getTask_state w request g : (getTask w request g).2 = g.
Proof.
  unfold getTask. case_match; [|reflexivity].
  destruct (Marshal_Task _) as [response [err|]]; reflexivity.
Qed.

Lemma postTask_state w request g :
  (postTask w request g).2 = g
  \/ exists t, (postTask w request g).2 = {| tasks := <[ID t := t]> (tasks g) |}.
Proof.
  unfold postTask. destruct (ReadFrom (Body request)) as [buffer [err|]]; [by left|].
  destruct (Unmarshal_Task buffer Task_zero) as [newTask [err|]]; [by left|].
  right. by exists newTask.
Qed.

Lemma deleteTask_state w request g :
  (deleteTask w request g).2 = g
  \/ (deleteTask w request g).2 = {| tasks := delete (chi_URLParam request "id") (tasks g) |}.
Proof.
  unfold deleteTask. case_match; [by right | by left].
Qed.

Lemma keys_are_ids_initial : keys_are_ids (tasks initial).
Proof.
  intros id t. unfold initial; simpl.
  rewrite !lookup_insert_Some, lookup_empty.
  intros [[<- <-] | [_ [[<- <-] | [_ ?]]]]; done.
Qed.

Lemma keys_are_ids_insert m t :
  keys_are_ids m -> keys_are_ids (<[ID t := t]> m).
Proof.
  intros Hm id t'. rewrite lookup_insert_Some.
  intros [[<- <-] | [_ Hlook]]; [done | by apply Hm].
Qed.

Lemma keys_are_ids_delete m id :
  keys_are_ids m -> keys_are_ids (delete id m).
Proof.
  intros Hm id' t'. rewrite lookup_delete_Some. intros [_ Hlook]. by apply Hm.
Qed.

(** C5: in every state the process can reach from the seed by create and
    delete requests (and by the two read requests), each key of the mapping
    is the [id] field of the task stored under it. *)
Theorem reachable_keys_are_ids g :
  reachable g -> forall id t, tasks g !! id = Some t -> ID t = id.
Proof.
  intros Hreach. change (keys_are_ids (tasks g)).
  induction Hreach as [| w r g _ IH | w r g _ IH | w r g _ IH | w r g _ IH].
  - exact keys_are_ids_initial.
  - by rewrite getTasks_state.
  - by rewrite getTask_state.
  - destruct (postTask_state w r g) as [-> | [t ->]]; [done|].
    by apply keys_are_ids_insert.
  - destruct (deleteTask_state w r g) as [-> | ->]; [done|].
    by apply keys_are_ids_delete.
Qed.

(** C6: a task posted with [postTask] and then fetched under its own id
    with [getTask] comes back with status 200 and content type
    [application/json], and the body is the encoding of the stored task:
    wherever decoding inverts encoding at that task, the body decodes to the
    posted task, field for field. *)
Theorem post_then_get_round_trip post get g t response :
  failure (Body post) = None ->
  Unmarshal_Task (content (Body post)) Task_zero = (t, None) ->
  chi_URLParam get "id" = ID t ->
  Marshal_Task t = (response, None) ->
  Unmarshal_Task response Task_zero = (t, None) ->
  let g1 := (postTask NewWriter post g).2 in
  let w := (getTask NewWriter get g1).1 in
  status w = StatusOK
  /\ contentType w = Some ["application/json"]
  /\ body w = response
  /\ Unmarshal_Task (body w) Task_zero = (t, None).
Proof.
  intros Hread Hdec Hid Henc Hinv g1 w. subst g1 w.
  rewrite (postTask_decoded _ _ _ Hread Hdec); simpl.
  rewrite (getTask_found get _ t response); simpl; [done | | done].
  rewrite Hid. apply lookup_insert_eq.
Qed.

(** C7: once an id has been deleted, any number of further deletes of the
    same id leave the mapping exactly as the first delete left it, and each
    of them is answered as a delete of an absent id (status 400 and the
    not-found body), not as a success. *)
Theorem deleteTask_idempotent first rest g :
  Forall (fun r => chi_URLParam r "id" = chi_URLParam first "id") rest ->
  let g1 := (deleteTask NewWriter first g).2 in
  deleteTasks rest g1 = g1
  /\ Forall (fun r => deleteTask NewWriter r g1 =
                      (http_Error NewWriter "Task was not found." StatusBadRequest, g1)) rest.
Proof.
  intros Hsame g1.
  assert (Hstep : forall r, chi_URLParam r "id" = chi_URLParam first "id" ->
            deleteTask NewWriter r g1 =
            (http_Error NewWriter "Task was not found." StatusBadRequest, g1)).
  { intros r Hr. apply deleteTask_missing. rewrite Hr. apply deleteTask_absent. }
  split.
  - unfold deleteTasks. induction Hsame as [| r rest Hr _ IH]; simpl; [done|].
    by rewrite (Hstep r Hr).
  - eapply Forall_impl; [exact Hsame | exact Hstep].
Qed.


(** C9: when the body of the request cannot be read, or is read but does
    not decode into a task, [postTask] answers with status 400 and the
    message of that error (written by [http.Error], so ended by a line
    feed), and the mapping after the request is the mapping before it. *)
Theorem postTask_rejects_atomically request g e :
  (failure (Body request) = Some e
   \/ (failure (Body request) = None
       /\ (Unmarshal_Task (content (Body request)) Task_zero).2 = Some e)) ->
  status (postTask NewWriter request g).1 = StatusBadRequest
  /\ body (postTask NewWriter request g).1 = Error e +:+ LF
  /\ (postTask NewWriter request g).2 = g.
Proof.
  unfold postTask, ReadFrom. intros [Hread | [Hread Hdec]]; rewrite Hread.
  - done.
  - destruct (Unmarshal_Task _ _) as [newTask err]. simpl in Hdec. by subst err.
Qed.

(** ** The entry point *)

Lemma main_listens ListenAndServe :
  fst <$> listener (main ListenAndServe) = Some ":8080".
Proof. unfold main. by repeat case_match. Qed.

Lemma main_routes ListenAndServe :
  (fun rt => (method rt, pattern rt)) <$> default [] (snd <$> listener (main ListenAndServe))
  = [("GET", "/tasks"); ("POST", "/tasks"); ("GET", "/tasks/{id}"); ("DELETE", "/tasks/{id}")].
Proof. unfold main. by repeat case_match. Qed.

(** When the listener fails, [main] prints the failure and returns. *)
Lemma main_listener_failure ListenAndServe err :
  (forall addr router, ListenAndServe addr router = Returned (Some err)) ->
  stdout (main ListenAndServe) = "Ошибка при запуске сервера: " +:+ Error err
  /\ returned (main ListenAndServe) = true.
Proof. intros H. unfold main. by rewrite H. Qed.

(** The line [Listen and Serve] is printed only once [ListenAndServe] has
    returned without an error. *)
Lemma main_message_after_return ListenAndServe :
  stdout (main ListenAndServe) = "Listen and Serve" +:+ LF ->
  exists addr router, ListenAndServe addr router = Returned None.
Proof.
  unfold main. intros Hout.
  repeat case_match; simplify_eq; eauto.
Qed.

(** C10, evaluated where the claim fails: when the listener starts and
    serves, [main] has asked for address [:8080], has printed nothing, and
    has not returned: there is no startup message. *)
Theorem main_serving_prints_nothing :
  let p := main (fun _ _ => Serving) in
  fst <$> listener p = Some ":8080"
  /\ stdout p = ""
  /\ returned p = false.
Proof. done. Qed.

End Contract.

(** ** The [PlainJson] codec: decoding inverts encoding *)

Module PlainJsonFacts.

Import PlainJson.

Lemma append_cons (c : ascii) (s t : string) : String c s +:+ t = String c (s +:+ t).
Proof. reflexivity. Qed.

Lemma append_nil_l (t : string) : "" +:+ t = t.
Proof. reflexivity. Qed.

Lemma append_nil_r (s : string) : s +:+ "" = s.
Proof. induction s as [|c s IH]; [done | by rewrite append_cons, IH]. Qed.

Lemma append_assoc (a b c : string) : (a +:+ b) +:+ c = a +:+ (b +:+ c).
Proof. induction a as [|x a IH]; [done | by rewrite !append_cons, IH]. Qed.

Lemma rev_app_rev_app (s a b : string) :
  String.rev_app (String.rev_app s a) b = String.rev_app a (s +:+ b).
Proof.
  revert a b. induction s as [|c s IH]; intros a b; simpl; [done|].
  by rewrite IH.
Qed.

Lemma lex_InStr (s acc rest : string) :
  lex (InStr acc) (escape s +:+ String dquote rest)
  = cons (TString (String.rev (String.rev_app s acc))) <$> lex Out rest.
Proof.
  revert acc. induction s as [|c s IH]; intros acc.
  - reflexivity.
  - simpl. destruct (decide (c = dquote)) as [->|Hq].
    + rewrite !append_cons. simpl. apply IH.
    + destruct (decide (c = backslash)) as [->|Hb].
      * rewrite !append_cons. simpl. apply IH.
      * rewrite !append_cons. simpl.
        rewrite decide_False by done. rewrite decide_False by done. apply IH.
Qed.

Lemma lex_encode_string (s rest : string) :
  lex Out (encode_string s +:+ rest) = cons (TString s) <$> lex Out rest.
Proof.
  unfold encode_string. rewrite append_cons, append_assoc, append_cons, append_nil_l.
  simpl.
  rewrite lex_InStr. unfold String.rev. rewrite rev_app_rev_app. simpl.
  by rewrite append_nil_r.
Qed.

Lemma lex_punct (c : ascii) (t : token) (rest : string) (ts : list token) :
  is_white c = false -> c <> dquote -> c <> "n"%char -> punct c = Some t ->
  lex Out rest = Some ts ->
  lex Out (String c rest) = Some (t :: ts).
Proof.
  intros Hw Hq Hn Hp Hrest. simpl. rewrite Hw.
  rewrite decide_False by done. rewrite decide_False by done.
  by rewrite Hp, Hrest.
Qed.

Lemma lex_string_then (s rest : string) (ts : list token) :
  lex Out rest = Some ts ->
  lex Out (encode_string s +:+ rest) = Some (TString s :: ts).
Proof. intros Hrest. by rewrite lex_encode_string, Hrest. Qed.

Lemma lex_comma_strings (s : string) (l : list string) (rest : string) (ts : list token) :
  lex Out rest = Some ts ->
  lex Out (join "," (encode_string <$> s :: l) +:+ rest)
  = Some (TString s :: (comma_tokens l ++ ts)%list).
Proof.
  intros Hrest. revert s. induction l as [|s' l IH]; intros s.
  - simpl. by apply lex_string_then.
  - change (join "," (encode_string <$> s :: s' :: l))
      with (encode_string s +:+ "," +:+ join "," (encode_string <$> s' :: l)).
    rewrite !append_assoc. apply lex_string_then.
    rewrite append_cons, append_nil_l.
    by apply (lex_punct _ TComma), IH.
Qed.

Lemma lex_encode_strings (a : slice string) (rest : string) (ts : list token) :
  lex Out rest = Some ts ->
  lex Out (encode_strings a +:+ rest) = Some (slice_tokens a ++ ts)%list.
Proof.
  intros Hrest. destruct a as [l|]; unfold encode_strings, slice_tokens.
  - rewrite append_assoc, append_cons, append_nil_l.
    apply (lex_punct _ TLBrack); try done.
    rewrite append_assoc, append_cons, append_nil_l.
    destruct l as [|s l].
    + change (join "," (encode_string <$> [])) with "".
      rewrite append_nil_l. by apply (lex_punct _ TRBrack).
    + rewrite lex_comma_strings with (ts := TRBrack :: ts).
      * f_equal.
        change (((TString s :: comma_tokens l) ++ TRBrack :: ts)%list
                = (((TString s :: comma_tokens l) ++ [TRBrack]) ++ ts)%list).
        by rewrite <- app_assoc.
      * by apply (lex_punct _ TRBrack).
  - rewrite !append_cons, append_nil_l. simpl. by rewrite Hrest.
Qed.

Lemma lex_encode_Task (t : Task) : lex Out (encode_Task t) = Some (Task_tokens t).
Proof.
  unfold encode_Task, Task_tokens.
  rewrite append_cons, append_nil_l. apply (lex_punct _ TLBrace); try done.
  repeat (apply lex_string_then; rewrite append_cons, append_nil_l;
          (apply (lex_punct _ TColon) || apply (lex_punct _ TComma)); try done).
  apply lex_encode_strings. reflexivity.
Qed.

Lemma parse_elems_comma_tokens (l : list string) (rest : list token) :
  parse_elems (comma_tokens l ++ TRBrack :: rest)%list = Some (l, rest).
Proof.
  induction l as [|s l IH]; simpl; [done|]. by rewrite IH.
Qed.

Lemma parse_value_slice_tokens (a : slice string) (rest : list token) :
  parse_value (slice_tokens a ++ rest)%list = Some (slice_value a, rest).
Proof.
  destruct a as [[|s l]|]; [done | | done].
  change (match parse_elems ((comma_tokens l ++ [TRBrack]) ++ rest)%list with
          | Some (l', rest') => Some (VArray (s :: l'), rest')
          | None => None
          end = Some (VArray (s :: l), rest)).
  rewrite <- app_assoc.
  change ([TRBrack] ++ rest)%list with (TRBrack :: rest).
  by rewrite parse_elems_comma_tokens.
Qed.

Lemma decode_encode_Task (t : Task) : decode_Task (encode_Task t) Task_zero = Some t.
Proof.
  unfold decode_Task. rewrite lex_encode_Task.
  destruct t as [id description note applications].
  unfold Task_tokens. simpl.
  rewrite parse_value_slice_tokens.
  by destruct applications.
Qed.

(** The codec satisfies, at every task, what the round trip through the
    service asks of [encoding/json]. *)
Lemma codec_round_trip (t : Task) :
  exists response,
    @Marshal_Task codec t = (response, None)
    /\ @Unmarshal_Task codec response Task_zero = (t, None).
Proof.
  exists (encode_Task t). split; [reflexivity|].
  simpl. by rewrite decode_encode_Task.
Qed.

End PlainJsonFacts.

(** ** The contract at concrete requests, with the [PlainJson] codec *)

Lemma postTask_stores_decoded_task_witness :
  (failure (Body (request_with_id_and_body "1" json3)) = None
   /\ @Unmarshal_Task PlainJson.codec (content (Body (request_with_id_and_body "1" json3)))
        Task_zero = (task3, None))
  /\ tasks (@postTask PlainJson.codec NewWriter (request_with_id_and_body "1" json3) initial).2
     = <["3" := task3]> (tasks initial)
  /\ status (@postTask PlainJson.codec NewWriter (request_with_id_and_body "1" json3) initial).1
     = 201
  /\ body (@postTask PlainJson.codec NewWriter (request_with_id_and_body "1" json3) initial).1
     = "".
Proof.
  split; [split; [reflexivity | vm_compute; reflexivity] |].
  assert (Hdec : @Unmarshal_Task PlainJson.codec
                   (content (Body (request_with_id_and_body "1" json3))) Task_zero
                 = (task3, None)) by (vm_compute; reflexivity).
  destruct (@postTask_stores_decoded_task PlainJson.codec
              (request_with_id_and_body "1" json3) initial task3 eq_refl Hdec)
    as (Hstate & _ & _ & Hstatus & _ & Hbody).
  split_and!; assumption.
Defined.

Lemma getTasks_initial_witness :
  @Marshal_tasks PlainJson.codec (tasks initial) = (PlainJson.encode_tasks (tasks initial), None)
  /\ status (@getTasks PlainJson.codec NewWriter (request_with_id "") initial).1 = 200
  /\ body (@getTasks PlainJson.codec NewWriter (request_with_id "") initial).1
     = PlainJson.encode_tasks (tasks initial).
Proof.
  split; [reflexivity|].
  destruct (@getTasks_initial PlainJson.codec (request_with_id "")
              (PlainJson.encode_tasks (tasks initial)) eq_refl)
    as (_ & Hstatus & _ & Hbody & _).
  split; [exact Hstatus | exact Hbody].
Defined.

(** C3 as stated fails: for the absent id 3 the body [getTask] writes is
    not the bare message, it ends with a line feed. *)
Lemma getTask_not_found_body_counterexample :
  tasks initial !! chi_URLParam (request_with_id "3") "id" = None
  /\ body (@getTask PlainJson.codec NewWriter (request_with_id "3") initial).1
     <> "Task with given ID was not found".
Proof.
  split; [reflexivity|].
  change (body (@getTask PlainJson.codec NewWriter (request_with_id "3") initial).1)
    with ("Task with given ID was not found" +:+ LF).
  apply append_LF_neq.
Qed.

Lemma getTask_not_found_witness :
  tasks initial !! chi_URLParam (request_with_id "3") "id" = None
  /\ status (@getTask PlainJson.codec NewWriter (request_with_id "3") initial).1 = 400
  /\ body (@getTask PlainJson.codec NewWriter (request_with_id "3") initial).1
     = "Task with given ID was not found" +:+ LF
  /\ (@getTask PlainJson.codec NewWriter (request_with_id "3") initial).2 = initial.
Proof.
  split; [reflexivity|].
  destruct (@getTask_not_found PlainJson.codec (request_with_id "3") initial eq_refl)
    as (Hstatus & _ & Hbody & Hstate).
  split_and!; assumption.
Defined.

(** C4 as stated fails: for the absent id 3 the body [deleteTask] writes
    is not the bare message, it ends with a line feed. *)
Lemma deleteTask_not_found_body_counterexample :
  tasks initial !! chi_URLParam (request_with_id "3") "id" = None
  /\ body (deleteTask NewWriter (request_with_id "3") initial).1
     <> "Task was not found.".
Proof.
  split; [reflexivity|].
  change (body (deleteTask NewWriter (request_with_id "3") initial).1)
    with ("Task was not found." +:+ LF).
  apply append_LF_neq.
Qed.

Lemma deleteTask_not_found_witness :
  tasks initial !! chi_URLParam (request_with_id "3") "id" = None
  /\ status (deleteTask NewWriter (request_with_id "3") initial).1 = 400
  /\ body (deleteTask NewWriter (request_with_id "3") initial).1
     = "Task was not found." +:+ LF
  /\ (deleteTask NewWriter (request_with_id "3") initial).2 = initial.
Proof.
  split; [reflexivity|].
  destruct (@deleteTask_not_found (request_with_id "3") initial eq_refl)
    as (Hstatus & _ & Hbody & Hstate).
  split_and!; assumption.
Defined.

Lemma reachable_keys_are_ids_witness :
  @reachable PlainJson.codec after_post3
  /\ tasks after_post3 !! "3" = Some task3
  /\ ID task3 = "3".
Proof.
  assert (Hreach : @reachable PlainJson.codec after_post3)
    by (apply reachable_postTask, reachable_initial).
  assert (Hlook : tasks after_post3 !! "3" = Some task3) by (vm_compute; reflexivity).
  split_and!; [exact Hreach | exact Hlook |].
  exact (@reachable_keys_are_ids PlainJson.codec after_post3 Hreach "3" task3 Hlook).
Defined.

Lemma post_then_get_round_trip_witness :
  status (@getTask PlainJson.codec NewWriter (request_with_id "3") after_post3).1 = 200
  /\ body (@getTask PlainJson.codec NewWriter (request_with_id "3") after_post3).1 = json3
  /\ @Unmarshal_Task PlainJson.codec
       (body (@getTask PlainJson.codec NewWriter (request_with_id "3") after_post3).1)
       Task_zero = (task3, None).
Proof.
  assert (Hdec : @Unmarshal_Task PlainJson.codec json3 Task_zero = (task3, None))
    by (vm_compute; reflexivity).
  destruct (@post_then_get_round_trip PlainJson.codec
              (request_with_body json3) (request_with_id "3") initial task3 json3
              eq_refl Hdec eq_refl eq_refl Hdec)
    as (Hstatus & _ & Hbody & Hback).
  split_and!; assumption.
Defined.

Lemma deleteTask_idempotent_witness :
  tasks after_delete1 !! "1" = None
  /\ deleteTasks [request_with_id "1"; request_with_id "1"] after_delete1 = after_delete1
  /\ status (deleteTask NewWriter (request_with_id "1") after_delete1).1 = 400.
Proof.
  split; [reflexivity|].
  destruct (@deleteTask_idempotent (request_with_id "1")
              [request_with_id "1"; request_with_id "1"] initial
              ltac:(repeat constructor))
    as (Hstate & Hanswers).
  split; [exact Hstate|].
  exact (f_equal (fun p : ResponseWriter * Globals => status p.1) (Forall_inv Hanswers)).
Defined.


Lemma postTask_rejects_atomically_witness :
  (@Unmarshal_Task PlainJson.codec "{" Task_zero).2 = Some (errorString "invalid JSON input")
  /\ status (@postTask PlainJson.codec NewWriter (request_with_body "{") initial).1 = 400
  /\ (@postTask PlainJson.codec NewWriter (request_with_body "{") initial).2 = initial
  /\ (@postTask PlainJson.codec NewWriter
        (request_with_broken_body "{" (errorString "unexpected EOF")) initial).2 = initial.
Proof.
  split; [reflexivity|].
  destruct (@postTask_rejects_atomically PlainJson.codec (request_with_body "{") initial
              (errorString "invalid JSON input") (or_intror (conj eq_refl eq_refl)))
    as (Hstatus & _ & Hstate).
  destruct (@postTask_rejects_atomically PlainJson.codec
              (request_with_broken_body "{" (errorString "unexpected EOF")) initial
              (errorString "unexpected EOF") (or_introl eq_refl))
    as (_ & _ & Hstate').
  split_and!; assumption.
Defined.

(** * Further properties of the handlers and of [main] *)

Section Behaviour.

Context {J : Json}.

Implicit Types (request : Request) (g : Globals) (t : Task) (w : ResponseWriter).

(** The state a handler leaves, on any writer. *)

Lemma Globals_eta g : {| tasks := tasks g |} = g.
Proof. by destruct g. Qed.

Lemma deleteTask_tasks w request g :
  tasks (deleteTask w request g).2 = delete (chi_URLParam request "id") (tasks g).
Proof.
  unfold deleteTask.
  destruct (tasks g !! chi_URLParam request "id") eqn:Hlook; simpl; [done|].
  by rewrite delete_id.
Qed.

Lemma postTask_tasks w request g t :
  failure (Body request) = None ->
  Unmarshal_Task (content (Body request)) Task_zero = (t, None) ->
  tasks (postTask w request g).2 = <[ID t := t]> (tasks g).
Proof.
  intros Hread Hdec. unfold postTask, ReadFrom. by rewrite Hread, Hdec.
Qed.

Lemma Globals_eq g g' : tasks g = tasks g' -> g = g'.
Proof. destruct g, g'; simpl. by intros ->. Qed.

(** Delete, success path: for an id that is in the mapping, [deleteTask]
    answers with status 200, content type [application/json] and an empty
    body, and removes that entry and no other: the id is absent afterwards,
    every other id maps to what it mapped to, and the mapping has one entry
    less. *)
Theorem deleteTask_removes_entry request g t :
  tasks g !! chi_URLParam request "id" = Some t ->
  status (deleteTask NewWriter request g).1 = StatusOK
  /\ contentType (deleteTask NewWriter request g).1 = Some ["application/json"]
  /\ body (deleteTask NewWriter request g).1 = ""
  /\ tasks (deleteTask NewWriter request g).2 !! chi_URLParam request "id" = None
  /\ (forall id, id <> chi_URLParam request "id" ->
        tasks (deleteTask NewWriter request g).2 !! id = tasks g !! id)
  /\ size (tasks g) = S (size (tasks (deleteTask NewWriter request g).2)).
Proof.
  intros Hlook. rewrite (deleteTask_found _ _ t Hlook). simpl.
  split_and!; try done.
  - apply lookup_delete_eq.
  - intros id Hne. by apply lookup_delete_ne.
  - rewrite <- (insert_delete_id (tasks g) _ _ Hlook) at 1.
    apply map_size_insert_None, lookup_delete_eq.
Qed.

(** Get, success path: for an id that is in the mapping, whatever state the
    mapping is in, [getTask] answers with status 200, content type
    [application/json] and the encoding of the task stored under that id,
    and leaves the mapping as it is. *)
Theorem getTask_returns_stored_task request g t response :
  tasks g !! chi_URLParam request "id" = Some t ->
  Marshal_Task t = (response, None) ->
  status (getTask NewWriter request g).1 = StatusOK
  /\ contentType (getTask NewWriter request g).1 = Some ["application/json"]
  /\ body (getTask NewWriter request g).1 = response
  /\ (getTask NewWriter request g).2 = g.
Proof.
  intros Hlook Henc. by rewrite (getTask_found _ _ t response Hlook Henc).
Qed.

(** List, success path: in every state of the mapping, [getTasks] answers
    with status 200, content type [application/json] and the encoding of the
    whole current mapping, and leaves the mapping as it is. *)
Theorem getTasks_lists_mapping request g response :
  Marshal_tasks (tasks g) = (response, None) ->
  status (getTasks NewWriter request g).1 = StatusOK
  /\ contentType (getTasks NewWriter request g).1 = Some ["application/json"]
  /\ body (getTasks NewWriter request g).1 = response
  /\ (getTasks NewWriter request g).2 = g.
Proof.
  intros Henc. unfold getTasks. by rewrite Henc.
Qed.

(** The two read handlers never change the mapping: whatever the writer,
    the request and the outcome (found or not, encoded or not), the state
    after [getTasks] and after [getTask] is the state before. *)
Theorem reads_never_change_tasks w request g :
  (getTasks w request g).2 = g /\ (getTask w request g).2 = g.
Proof.
  split.
  - unfold getTasks. by destruct (Marshal_tasks (tasks g)) as [response [err|]].
  - unfold getTask. destruct (tasks g !! chi_URLParam request "id") as [t|]; [|done].
    by destruct (Marshal_Task t) as [response [err|]].
Qed.

(** Create has two outcomes and no other: either it answers 201 with
    content type [application/json] and an empty body, the body was read and
    decoded into a task, and the mapping is the old one with that task under
    its id; or it answers 400 as plain text and the mapping is untouched. *)
Theorem postTask_outcomes request g :
  (status (postTask NewWriter request g).1 = StatusCreated
   /\ contentType (postTask NewWriter request g).1 = Some ["application/json"]
   /\ body (postTask NewWriter request g).1 = ""
   /\ exists t, failure (Body request) = None
        /\ Unmarshal_Task (content (Body request)) Task_zero = (t, None)
        /\ tasks (postTask NewWriter request g).2 = <[ID t := t]> (tasks g))
  \/ (status (postTask NewWriter request g).1 = StatusBadRequest
      /\ contentType (postTask NewWriter request g).1 = Some ["text/plain; charset=utf-8"]
      /\ (postTask NewWriter request g).2 = g).
Proof.
  unfold postTask, ReadFrom.
  destruct (failure (Body request)) as [e|] eqn:Hread; [by right|].
  destruct (Unmarshal_Task (content (Body request)) Task_zero) as [t [e|]] eqn:Hdec;
    [by right|].
  left. split_and!; try done. by exists t.
Qed.

(** Delete has two outcomes and no other: either it answers 200 with
    content type [application/json], the id was in the mapping and is
    removed; or it answers 400 as plain text, the id was not in the mapping
    and the mapping is untouched. *)
Theorem deleteTask_outcomes request g :
  (status (deleteTask NewWriter request g).1 = StatusOK
   /\ contentType (deleteTask NewWriter request g).1 = Some ["application/json"]
   /\ is_Some (tasks g !! chi_URLParam request "id")
   /\ tasks (deleteTask NewWriter request g).2
      = delete (chi_URLParam request "id") (tasks g))
  \/ (status (deleteTask NewWriter request g).1 = StatusBadRequest
      /\ contentType (deleteTask NewWriter request g).1 = Some ["text/plain; charset=utf-8"]
      /\ tasks g !! chi_URLParam request "id" = None
      /\ (deleteTask NewWriter request g).2 = g).
Proof.
  destruct (tasks g !! chi_URLParam request "id") as [t|] eqn:Hlook.
  - left. rewrite (deleteTask_found _ _ t Hlook). by split_and!.
  - right. rewrite (deleteTask_missing _ _ Hlook). by split_and!.
Qed.

(** The read handlers answer with a JSON body exactly on status 200, and
    otherwise as plain text: [getTasks] with 500 only, [getTask] with 400
    only.  Neither ever answers with another status. *)
Theorem read_outcomes request g :
  ((status (getTasks NewWriter request g).1 = StatusOK
    /\ contentType (getTasks NewWriter request g).1 = Some ["application/json"])
   \/ (status (getTasks NewWriter request g).1 = StatusInternalServerError
       /\ contentType (getTasks NewWriter request g).1 = Some ["text/plain; charset=utf-8"]))
  /\ ((status (getTask NewWriter request g).1 = StatusOK
       /\ contentType (getTask NewWriter request g).1 = Some ["application/json"])
      \/ (status (getTask NewWriter request g).1 = StatusBadRequest
          /\ contentType (getTask NewWriter request g).1 = Some ["text/plain; charset=utf-8"])).
Proof.
  split.
  - unfold getTasks. destruct (Marshal_tasks (tasks g)) as [response [err|]];
      [by right | by left].
  - unfold getTask. destruct (tasks g !! chi_URLParam request "id") as [t|]; [|by right].
    destruct (Marshal_Task t) as [response [err|]]; [by right | by left].
Qed.

(** The answer of create does not depend on the mapping: a create that
    overwrites an entry is answered exactly as one that adds an entry. *)
Theorem postTask_response_ignores_mapping w request g g' :
  (postTask w request g).1 = (postTask w request g').1.
Proof.
  unfold postTask. destruct (ReadFrom (Body request)) as [buffer [e|]]; [done|].
  by destruct (Unmarshal_Task buffer Task_zero) as [t [e|]].
Qed.

(** A successful create adds one entry when the id is new and keeps the
    number of entries when the id is taken; in both cases the ids of the
    mapping are the old ones and the id of the decoded task. *)
Theorem postTask_size w request g t :
  failure (Body request) = None ->
  Unmarshal_Task (content (Body request)) Task_zero = (t, None) ->
  size (tasks (postTask w request g).2)
  = match tasks g !! ID t with
    | Some _ => size (tasks g)
    | None => S (size (tasks g))
    end
  /\ dom (tasks (postTask w request g).2) = {[ID t]} ∪ dom (tasks g).
Proof.
  intros Hread Hdec. rewrite (postTask_tasks _ _ _ _ Hread Hdec). split.
  - destruct (tasks g !! ID t) as [t'|] eqn:Hlook.
    + by apply map_size_insert_Some.
    + by apply map_size_insert_None.
  - apply dom_insert_L.
Qed.

(** ** How requests compose *)

(** Create then delete: when the id of the created task was not in the
    mapping, deleting that id brings the mapping back to exactly what it was
    before the create. *)
Theorem post_then_delete_restores w w' post del g t :
  failure (Body post) = None ->
  Unmarshal_Task (content (Body post)) Task_zero = (t, None) ->
  chi_URLParam del "id" = ID t ->
  tasks g !! ID t = None ->
  (deleteTask w' del (postTask w post g).2).2 = g.
Proof.
  intros Hread Hdec Hid Hfresh. apply Globals_eq.
  rewrite deleteTask_tasks, (postTask_tasks _ _ _ _ Hread Hdec), Hid.
  by apply delete_insert_id.
Qed.

(** Delete then create: deleting an entry and then creating the task that
    was stored there brings the mapping back to exactly what it was. *)
Theorem delete_then_post_restores w w' post del g t :
  tasks g !! ID t = Some t ->
  chi_URLParam del "id" = ID t ->
  failure (Body post) = None ->
  Unmarshal_Task (content (Body post)) Task_zero = (t, None) ->
  (postTask w' post (deleteTask w del g).2).2 = g.
Proof.
  intros Hlook Hid Hread Hdec. apply Globals_eq.
  rewrite (postTask_tasks _ _ _ _ Hread Hdec), deleteTask_tasks, Hid.
  by apply insert_delete_id.
Qed.

(** Delete then get: after a delete of an id, found or not, a get of the
    same id is answered as not found (status 400, the not-found message and
    a line feed) and leaves the mapping as the delete left it. *)
Theorem delete_then_get_not_found w del get g :
  chi_URLParam get "id" = chi_URLParam del "id" ->
  getTask NewWriter get (deleteTask w del g).2
  = (http_Error NewWriter "Task with given ID was not found" StatusBadRequest,
     (deleteTask w del g).2).
Proof.
  intros Hid. apply getTask_missing.
  rewrite deleteTask_tasks, Hid. apply lookup_delete_eq.
Qed.

(** Create is idempotent on the mapping: serving the same create request a
    second time, whether it is accepted or rejected, leaves the mapping as
    the first one left it. *)
Theorem postTask_twice w w' request g :
  (postTask w' request (postTask w request g).2).2 = (postTask w request g).2.
Proof.
  unfold postTask. destruct (ReadFrom (Body request)) as [buffer [e|]]; [done|].
  destruct (Unmarshal_Task buffer Task_zero) as [t [e|]]; [done|].
  simpl. by rewrite insert_insert_eq.
Qed.

(** Last write wins: of two accepted creates whose tasks have the same id,
    only the second one shows; the mapping is what the second create alone
    would have produced, and the id maps to the second task. *)
Theorem postTask_last_write_wins w w' first second g t1 t2 :
  failure (Body first) = None ->
  Unmarshal_Task (content (Body first)) Task_zero = (t1, None) ->
  failure (Body second) = None ->
  Unmarshal_Task (content (Body second)) Task_zero = (t2, None) ->
  ID t1 = ID t2 ->
  (postTask w' second (postTask w first g).2).2 = (postTask w' second g).2
  /\ tasks (postTask w' second (postTask w first g).2).2 !! ID t1 = Some t2.
Proof.
  intros Hread1 Hdec1 Hread2 Hdec2 Hid.
  assert (Hsame : (postTask w' second (postTask w first g).2).2 = (postTask w' second g).2).
  { apply Globals_eq.
    rewrite !(postTask_tasks _ second _ _ Hread2 Hdec2), (postTask_tasks _ _ _ _ Hread1 Hdec1).
    rewrite Hid. apply insert_insert_eq. }
  split; [exact Hsame|].
  rewrite Hsame, (postTask_tasks _ _ _ _ Hread2 Hdec2), Hid. apply lookup_insert_eq.
Qed.

(** Accepted creates of tasks with different ids commute: the mapping after
    both does not depend on the order in which they were served. *)
Theorem postTask_commute w1 w2 w3 w4 r1 r2 g t1 t2 :
  failure (Body r1) = None ->
  Unmarshal_Task (content (Body r1)) Task_zero = (t1, None) ->
  failure (Body r2) = None ->
  Unmarshal_Task (content (Body r2)) Task_zero = (t2, None) ->
  ID t1 <> ID t2 ->
  (postTask w2 r2 (postTask w1 r1 g).2).2 = (postTask w4 r1 (postTask w3 r2 g).2).2.
Proof.
  intros Hread1 Hdec1 Hread2 Hdec2 Hne. apply Globals_eq.
  rewrite (postTask_tasks _ r2 _ _ Hread2 Hdec2), (postTask_tasks _ r1 _ _ Hread1 Hdec1).
  rewrite (postTask_tasks _ r1 _ _ Hread1 Hdec1), (postTask_tasks _ r2 _ _ Hread2 Hdec2).
  by apply insert_insert_ne.
Qed.

(** Deletes commute: the mapping after two deletes, of any ids, present or
    not, does not depend on the order in which they were served. *)
Theorem deleteTask_commute w1 w2 w3 w4 r1 r2 g :
  (deleteTask w2 r2 (deleteTask w1 r1 g).2).2 = (deleteTask w4 r1 (deleteTask w3 r2 g).2).2.
Proof.
  apply Globals_eq. rewrite !deleteTask_tasks. apply delete_delete.
Qed.

(** An accepted create and a delete of another id commute. *)
Theorem postTask_deleteTask_commute w1 w2 w3 w4 post del g t :
  failure (Body post) = None ->
  Unmarshal_Task (content (Body post)) Task_zero = (t, None) ->
  chi_URLParam del "id" <> ID t ->
  (deleteTask w2 del (postTask w1 post g).2).2 = (postTask w4 post (deleteTask w3 del g).2).2.
Proof.
  intros Hread Hdec Hne. apply Globals_eq.
  rewrite deleteTask_tasks, !(postTask_tasks _ _ _ _ Hread Hdec), deleteTask_tasks.
  by apply delete_insert_ne.
Qed.

(** ** Runs *)

(** A call that neither creates under an id nor deletes it leaves what is
    stored under it; a rejected create is such a call. *)
Lemma serve_lookup_kept id c g :
  ~ creates id c -> ~ deletes id c -> tasks (serve c g).2 !! id = tasks g !! id.
Proof.
  destruct c as [r | r | r | r]; simpl; intros Hcreate Hdelete.
  - by rewrite getTasks_state.
  - unfold postTask, ReadFrom.
    destruct (failure (Body r)) as [e|] eqn:Hread; [done|].
    destruct (Unmarshal_Task (content (Body r)) Task_zero) as [t [e|]] eqn:Hdec; [done|].
    simpl in *. apply lookup_insert_ne. intros Hid. by apply Hcreate.
  - by rewrite getTask_state.
  - rewrite deleteTask_tasks. by apply lookup_delete_ne.
Qed.

(** A call that does not create under an id leaves the id absent if it
    was; deletes of the id, and rejected creates, are such calls. *)
Lemma serve_absent_kept id c g :
  ~ creates id c -> tasks g !! id = None -> tasks (serve c g).2 !! id = None.
Proof.
  destruct c as [r | r | r | r]; simpl; intros Hcreate Habsent.
  - by rewrite getTasks_state.
  - unfold postTask, ReadFrom.
    destruct (failure (Body r)) as [e|] eqn:Hread; [done|].
    destruct (Unmarshal_Task (content (Body r)) Task_zero) as [t [e|]] eqn:Hdec; [done|].
    simpl in *. rewrite lookup_insert_ne; [done|]. intros Hid. by apply Hcreate.
  - by rewrite getTask_state.
  - rewrite deleteTask_tasks. apply lookup_delete_None. by right.
Qed.

Lemma run_lookup_kept id cs g :
  Forall (fun c => ~ creates id c /\ ~ deletes id c) cs ->
  tasks (run cs g) !! id = tasks g !! id.
Proof.
  intros Hcs. revert g. unfold run.
  induction Hcs as [| c cs [Hcreate Hdelete] _ IH]; intros g; simpl; [done|].
  by rewrite IH, serve_lookup_kept.
Qed.

Lemma run_absent_kept id cs g :
  Forall (fun c => ~ creates id c) cs ->
  tasks g !! id = None -> tasks (run cs g) !! id = None.
Proof.
  intros Hcs. revert g. unfold run.
  induction Hcs as [| c cs Hcreate _ IH]; intros g Habsent; simpl; [done|].
  by apply IH, serve_absent_kept.
Qed.

(** A created task stays until a request creates or deletes under its id:
    after an accepted create, and then any run of calls none of which is an
    accepted create of a task with that id or a delete of that id, a get of
    the id answers 200 with the encoding of the task that was created.
    Rejected creates, whatever their body, are allowed in the run. *)
Theorem created_task_survives_run w post cs get g t response :
  failure (Body post) = None ->
  Unmarshal_Task (content (Body post)) Task_zero = (t, None) ->
  Forall (fun c => ~ creates (ID t) c /\ ~ deletes (ID t) c) cs ->
  chi_URLParam get "id" = ID t ->
  Marshal_Task t = (response, None) ->
  status (getTask NewWriter get (run cs (postTask w post g).2)).1 = StatusOK
  /\ contentType (getTask NewWriter get (run cs (postTask w post g).2)).1
     = Some ["application/json"]
  /\ body (getTask NewWriter get (run cs (postTask w post g).2)).1 = response.
Proof.
  intros Hread Hdec Hcs Hid Henc.
  rewrite (getTask_found get _ t response); [done | | done].
  rewrite Hid, (run_lookup_kept _ _ _ Hcs), (postTask_tasks _ _ _ _ Hread Hdec).
  apply lookup_insert_eq.
Qed.

(** A deleted id stays absent until a task is created under it: after a
    delete, and then any run of calls none of which is an accepted create of
    a task with that id, a get of the id is answered as not found.  Further
    deletes of the id and rejected creates are allowed in the run. *)
Theorem deleted_task_stays_absent w del cs get g :
  Forall (fun c => ~ creates (chi_URLParam del "id") c) cs ->
  chi_URLParam get "id" = chi_URLParam del "id" ->
  status (getTask NewWriter get (run cs (deleteTask w del g).2)).1 = StatusBadRequest
  /\ body (getTask NewWriter get (run cs (deleteTask w del g).2)).1
     = "Task with given ID was not found" +:+ LF.
Proof.
  intros Hcs Hid.
  rewrite getTask_missing; [done|].
  rewrite Hid. apply (run_absent_kept _ _ _ Hcs).
  rewrite deleteTask_tasks. apply lookup_delete_eq.
Qed.

(** ** The entry point *)

(** Whatever the listener does, [main] asks for it on address [:8080] with
    exactly four routes: GET /tasks to [getTasks], POST /tasks to
    [postTask], GET /tasks/{id} to [getTask] and DELETE /tasks/{id} to
    [deleteTask]. *)
Theorem main_routing_table ListenAndServe :
  listener (main ListenAndServe) = Some (":8080", routes).
Proof. unfold main. by repeat case_match. Qed.

(** When the listener returns an error, [main] prints the text
    [Ошибка при запуске сервера: ] followed by the error's message, with no
    line feed after it, and returns. *)
Theorem main_reports_listener_failure ListenAndServe err :
  ListenAndServe ":8080" routes = Returned (Some err) ->
  stdout (main ListenAndServe) = "Ошибка при запуске сервера: " +:+ Error err
  /\ returned (main ListenAndServe) = true.
Proof.
  intros Hfail. unfold main.
  change (Router_Delete _ _ _) with routes. by rewrite Hfail.
Qed.

(** [main] prints the line [Listen and Serve] exactly when the listener has
    returned without an error; in particular not while the server runs, and
    not when the listener fails. *)
Theorem main_startup_line_iff ListenAndServe :
  stdout (main ListenAndServe) = "Listen and Serve" +:+ LF
  <-> ListenAndServe ":8080" routes = Returned None.
Proof.
  unfold main. change (Router_Delete _ _ _) with routes.
  destruct (ListenAndServe ":8080" routes) as [|[err|]]; simpl; split; try done.
Qed.

End Behaviour.

(** ** The further properties at concrete requests *)

Lemma deleteTask_removes_entry_witness :
  tasks initial !! chi_URLParam (request_with_id "1") "id" = Some seed1
  /\ status (deleteTask NewWriter (request_with_id "1") initial).1 = 200
  /\ tasks (deleteTask NewWriter (request_with_id "1") initial).2 !! "1" = None
  /\ size (tasks initial) = S (size (tasks (deleteTask NewWriter (request_with_id "1") initial).2)).
Proof.
  split; [reflexivity|].
  destruct (deleteTask_removes_entry (request_with_id "1") initial seed1 eq_refl)
    as (Hstatus & _ & _ & Hgone & _ & Hsize).
  split_and!; assumption.
Defined.

Lemma getTask_returns_stored_task_witness :
  tasks initial !! chi_URLParam (request_with_id "1") "id" = Some seed1
  /\ status (@getTask PlainJson.codec NewWriter (request_with_id "1") initial).1 = 200
  /\ body (@getTask PlainJson.codec NewWriter (request_with_id "1") initial).1
     = PlainJson.encode_Task seed1
  /\ (@getTask PlainJson.codec NewWriter (request_with_id "1") initial).2 = initial.
Proof.
  split; [reflexivity|].
  destruct (@getTask_returns_stored_task PlainJson.codec (request_with_id "1") initial seed1
              (PlainJson.encode_Task seed1) eq_refl eq_refl)
    as (Hstatus & _ & Hbody & Hstate).
  split_and!; assumption.
Defined.

Lemma getTasks_lists_mapping_witness :
  status (@getTasks PlainJson.codec NewWriter (request_with_id "") after_post3).1 = 200
  /\ body (@getTasks PlainJson.codec NewWriter (request_with_id "") after_post3).1
     = PlainJson.encode_tasks (tasks after_post3)
  /\ (@getTasks PlainJson.codec NewWriter (request_with_id "") after_post3).2 = after_post3.
Proof.
  destruct (@getTasks_lists_mapping PlainJson.codec (request_with_id "") after_post3
              (PlainJson.encode_tasks (tasks after_post3)) eq_refl)
    as (Hstatus & _ & Hbody & Hstate).
  split_and!; assumption.
Defined.

Lemma postTask_size_witness :
  @Unmarshal_Task PlainJson.codec (content (Body (request_with_body json3))) Task_zero
  = (task3, None)
  /\ tasks initial !! "3" = None
  /\ size (tasks (@postTask PlainJson.codec NewWriter (request_with_body json3) initial).2) = 3.
Proof.
  assert (Hdec : @Unmarshal_Task PlainJson.codec (content (Body (request_with_body json3)))
                   Task_zero = (task3, None)) by (vm_compute; reflexivity).
  split_and!; [exact Hdec | reflexivity |].
  exact (proj1 (@postTask_size PlainJson.codec NewWriter (request_with_body json3) initial
                  task3 eq_refl Hdec)).
Defined.

Lemma post_then_delete_restores_witness :
  tasks initial !! ID task3 = None
  /\ (deleteTask NewWriter (request_with_id "3")
        (@postTask PlainJson.codec NewWriter (request_with_body json3) initial).2).2 = initial.
Proof.
  split; [reflexivity|].
  apply (@post_then_delete_restores PlainJson.codec NewWriter NewWriter
           (request_with_body json3) (request_with_id "3") initial task3).
  - reflexivity.
  - vm_compute; reflexivity.
  - reflexivity.
  - reflexivity.
Defined.

Lemma delete_then_post_restores_witness :
  tasks initial !! ID seed1 = Some seed1
  /\ (@postTask PlainJson.codec NewWriter (request_with_body (PlainJson.encode_Task seed1))
        (deleteTask NewWriter (request_with_id "1") initial).2).2 = initial.
Proof.
  split; [reflexivity|].
  apply (@delete_then_post_restores PlainJson.codec NewWriter NewWriter
           (request_with_body (PlainJson.encode_Task seed1)) (request_with_id "1")
           initial seed1).
  - reflexivity.
  - reflexivity.
  - reflexivity.
  - vm_compute; reflexivity.
Defined.

Lemma delete_then_get_not_found_witness :
  status (@getTask PlainJson.codec NewWriter (request_with_id "1") after_delete1).1 = 400
  /\ body (@getTask PlainJson.codec NewWriter (request_with_id "1") after_delete1).1
     = "Task with given ID was not found" +:+ LF.
Proof.
  pose proof (@delete_then_get_not_found PlainJson.codec NewWriter
                (request_with_id "1") (request_with_id "1") initial eq_refl) as Hget.
  split.
  - exact (f_equal (fun p : ResponseWriter * Globals => status p.1) Hget).
  - exact (f_equal (fun p : ResponseWriter * Globals => body p.1) Hget).
Defined.

Lemma postTask_last_write_wins_witness :
  ID task3 = ID task3'
  /\ tasks (@postTask PlainJson.codec NewWriter (request_with_body json3')
              (@postTask PlainJson.codec NewWriter (request_with_body json3) initial).2).2
     !! "3" = Some task3'.
Proof.
  split; [reflexivity|].
  apply (@postTask_last_write_wins PlainJson.codec NewWriter NewWriter
           (request_with_body json3) (request_with_body json3') initial task3 task3').
  - reflexivity.
  - vm_compute; reflexivity.
  - reflexivity.
  - vm_compute; reflexivity.
  - reflexivity.
Defined.

Lemma postTask_commute_witness :
  ID task3 <> ID task4
  /\ (@postTask PlainJson.codec NewWriter (request_with_body json4)
        (@postTask PlainJson.codec NewWriter (request_with_body json3) initial).2).2
     = (@postTask PlainJson.codec NewWriter (request_with_body json3)
          (@postTask PlainJson.codec NewWriter (request_with_body json4) initial).2).2.
Proof.
  split; [discriminate|].
  apply (@postTask_commute PlainJson.codec NewWriter NewWriter NewWriter NewWriter
           (request_with_body json3) (request_with_body json4) initial task3 task4).
  - reflexivity.
  - vm_compute; reflexivity.
  - reflexivity.
  - vm_compute; reflexivity.
  - discriminate.
Defined.

Lemma postTask_deleteTask_commute_witness :
  chi_URLParam (request_with_id "1") "id" <> ID task3
  /\ (deleteTask NewWriter (request_with_id "1")
        (@postTask PlainJson.codec NewWriter (request_with_body json3) initial).2).2
     = (@postTask PlainJson.codec NewWriter (request_with_body json3)
          (deleteTask NewWriter (request_with_id "1") initial).2).2.
Proof.
  split; [discriminate|].
  apply (@postTask_deleteTask_commute PlainJson.codec NewWriter NewWriter NewWriter NewWriter
           (request_with_body json3) (request_with_id "1") initial task3).
  - reflexivity.
  - vm_compute; reflexivity.
  - discriminate.
Defined.

Lemma created_task_survives_run_witness :
  Forall (fun c => ~ @creates PlainJson.codec (ID task3) c /\ ~ deletes (ID task3) c)
    [CallPostTask (request_with_body json4);
     CallPostTask (request_with_broken_body json3' (errorString "unexpected EOF"));
     CallDeleteTask (request_with_id "1");
     CallGetTasks (request_with_id "")]
  /\ status (@getTask PlainJson.codec NewWriter (request_with_id "3")
               (@run PlainJson.codec
                  [CallPostTask (request_with_body json4);
                   CallPostTask (request_with_broken_body json3'
                                   (errorString "unexpected EOF"));
                   CallDeleteTask (request_with_id "1");
                   CallGetTasks (request_with_id "")]
                  (@postTask PlainJson.codec NewWriter (request_with_body json3) initial).2)).1
     = 200
  /\ body (@getTask PlainJson.codec NewWriter (request_with_id "3")
             (@run PlainJson.codec
                [CallPostTask (request_with_body json4);
                 CallPostTask (request_with_broken_body json3'
                                 (errorString "unexpected EOF"));
                 CallDeleteTask (request_with_id "1");
                 CallGetTasks (request_with_id "")]
                (@postTask PlainJson.codec NewWriter (request_with_body json3) initial).2)).1
     = json3.
Proof.
  assert (Hdec : @Unmarshal_Task PlainJson.codec (content (Body (request_with_body json3)))
                   Task_zero = (task3, None)) by (vm_compute; reflexivity).
  assert (Hcs : Forall (fun c => ~ @creates PlainJson.codec (ID task3) c
                                 /\ ~ deletes (ID task3) c)
                  [CallPostTask (request_with_body json4);
                   CallPostTask (request_with_broken_body json3'
                                   (errorString "unexpected EOF"));
                   CallDeleteTask (request_with_id "1");
                   CallGetTasks (request_with_id "")]).
  { repeat constructor.
    - intros (_ & _ & Hid). vm_compute in Hid. discriminate.
    - intros [].
    - intros (Hread & _). discriminate.
    - intros [].
    - intros [].
    - intros Hid. vm_compute in Hid. discriminate.
    - intros [].
    - intros []. }
  split; [exact Hcs|].
  destruct (@created_task_survives_run PlainJson.codec NewWriter (request_with_body json3)
              _ (request_with_id "3") initial task3 json3 eq_refl Hdec Hcs eq_refl eq_refl)
    as (Hstatus & _ & Hbody).
  split; assumption.
Defined.

Lemma deleted_task_stays_absent_witness :
  Forall (fun c => ~ @creates PlainJson.codec (chi_URLParam (request_with_id "1") "id") c)
    [CallPostTask (request_with_body json3);
     CallDeleteTask (request_with_id "1");
     CallPostTask (request_with_broken_body (PlainJson.encode_Task seed1)
                     (errorString "unexpected EOF"));
     CallDeleteTask (request_with_id "2")]
  /\ status (@getTask PlainJson.codec NewWriter (request_with_id "1")
               (@run PlainJson.codec
                  [CallPostTask (request_with_body json3);
                   CallDeleteTask (request_with_id "1");
                   CallPostTask (request_with_broken_body (PlainJson.encode_Task seed1)
                                   (errorString "unexpected EOF"));
                   CallDeleteTask (request_with_id "2")]
                  (deleteTask NewWriter (request_with_id "1") initial).2)).1
     = 400.
Proof.
  assert (Hcs : Forall (fun c => ~ @creates PlainJson.codec
                                    (chi_URLParam (request_with_id "1") "id") c)
                  [CallPostTask (request_with_body json3);
                   CallDeleteTask (request_with_id "1");
                   CallPostTask (request_with_broken_body (PlainJson.encode_Task seed1)
                                   (errorString "unexpected EOF"));
                   CallDeleteTask (request_with_id "2")]).
  { repeat constructor.
    - intros (_ & _ & Hid). vm_compute in Hid. discriminate.
    - intros [].
    - intros (Hread & _). discriminate.
    - intros []. }
  split; [exact Hcs|].
  exact (proj1 (@deleted_task_stays_absent PlainJson.codec NewWriter (request_with_id "1")
                  _ (request_with_id "1") initial Hcs eq_refl)).
Defined.

Lemma main_reports_listener_failure_witness :
  listen_fails address_in_use ":8080" (@routes PlainJson.codec)
  = Returned (Some address_in_use)
  /\ stdout (@main PlainJson.codec (listen_fails address_in_use))
     = "Ошибка при запуске сервера: listen tcp :8080: bind: address already in use"
  /\ returned (@main PlainJson.codec (listen_fails address_in_use)) = true.
Proof.
  split; [reflexivity|].
  exact (@main_reports_listener_failure PlainJson.codec (listen_fails address_in_use)
           address_in_use eq_refl).
Defined.
